(** * CSRF exemption middleware of the gig router backend

    A shallow embedding of [backend/gig_router/middleware.py]: the class
    [CsrfExemptApiMiddleware] and its single hook [process_view], which sets
    the attribute [_dont_enforce_csrf_checks] on requests whose path starts
    with ['/api/'] and returns [None].

    The request is a Python object mutated in place.  Its instance dictionary
    is modelled as a finite map from attribute names to values, and the hook
    runs in a small state-and-exception monad over that dictionary. *)

From stdpp Require Import base option strings gmap fin_maps relations.

Open Scope string_scope.

(** ** Python values and exceptions *)

#[warnings="-register-all"]
Inductive pyval : Type :=
  | PyNone
  | PyBool (b : bool)
  | PyInt (n : Z)
  | PyStr (s : string)
  | PyBytes (bs : list Byte.byte)
  | PyTuple (xs : list pyval)
  | PyDict (kvs : list (string * pyval))
  | PyFunc (name : string).

Inductive pyexn : Type :=
  | AttributeError (attr : string)
  | TypeError (msg : string).

Inductive outcome (A : Type) : Type :=
  | Return (a : A)
  | Raise (e : pyexn).
Arguments Return {A} a.
Arguments Raise {A} e.

(** Truth value of an object, as tested by [if]. *)
Definition truthy (v : pyval) : bool :=
  match v with
  | PyNone => false
  | PyBool b => b
  | PyInt n => negb (Z.eqb n 0)
  | PyStr s => negb (String.eqb s "")
  | PyBytes bs => match bs with [] => false | _ => true end
  | PyTuple xs => match xs with [] => false | _ => true end
  | PyDict kvs => match kvs with [] => false | _ => true end
  | PyFunc _ => true
  end.

(** ** The request object *)

(** Instance dictionary of the [HttpRequest]: attribute name to value. *)
Abbreviation Request := (gmap string pyval).

(** ** Computations that mutate the request and may raise

    A raised exception keeps the request as it was when it was raised. *)

Definition Py (A : Type) : Type := Request → outcome A * Request.

Definition py_ret {A} (a : A) : Py A := λ r, (Return a, r).

Definition py_bind {A B} (m : Py A) (k : A → Py B) : Py B :=
  λ r, match m r with
       | (Return a, r') => k a r'
       | (Raise e, r') => (Raise e, r')
       end.

Definition py_raise {A} (e : pyexn) : Py A := λ r, (Raise e, r).

Notation "x <- m ;; k" := (py_bind m (λ x, k))
  (at level 100, m at next level, right associativity, only parsing).
Notation "m ;;; k" := (py_bind m (λ _, k))
  (at level 100, right associativity, only parsing).

(** [request.name]: the attribute must exist. *)
Definition getattr (name : string) : Py pyval :=
  λ r, match r !! name with
       | Some v => (Return v, r)
       | None => (Raise (AttributeError name), r)
       end.

(** [setattr(request, name, v)]: creates or overwrites the attribute. *)
Definition setattr (name : string) (v : pyval) : Py () :=
  λ r, (Return (), <[name := v]> r).

(** ** [str.startswith] *)

Fixpoint startswith (s prefix : string) {struct prefix} : bool :=
  match prefix with
  | EmptyString => true
  | String c prefix' =>
      match s with
      | EmptyString => false
      | String d s' => Ascii.eqb d c && startswith s' prefix'
      end
  end.

(** The method call [v.startswith(prefix)]: defined on [str] receivers with a
    [str] argument; [bytes] receivers reject a [str] prefix and the other
    values have no such method. *)
Definition call_startswith (v prefix : pyval) : Py pyval :=
  match v, prefix with
  | PyStr s, PyStr p => py_ret (PyBool (startswith s p))
  | PyStr _, _ =>
      py_raise (TypeError "startswith first arg must be str or a tuple of str")
  | PyBytes _, _ =>
      py_raise (TypeError "startswith first arg must be bytes or a tuple of bytes")
  | _, _ => py_raise (AttributeError "startswith")
  end.

(** ** The middleware *)

Module CsrfExemptApiMiddleware.

(** The instance: [MiddlewareMixin] stores the next handler. *)
Record t : Type := { get_response : pyval }.

Definition api_prefix : string := "/api/".
Definition marker : string := "_dont_enforce_csrf_checks".

(** The condition of the [if]: [request.path.startswith('/api/')]. *)
Definition is_api_route : Py pyval :=
  path <- getattr "path" ;;
  call_startswith path (PyStr api_prefix).

(** [process_view(self, request, view_func, view_args, view_kwargs)];
    the request is the state of the computation. *)
Definition process_view (self : t) (view_func view_args view_kwargs : pyval)
  : Py pyval :=
  api <- is_api_route ;;
  (if truthy api then setattr marker (PyBool true) else py_ret ()) ;;;
  py_ret PyNone.

(** One invocation of the hook that returns normally, with any instance and
    any view. *)
Definition gate_step (r r' : Request) : Prop :=
  ∃ self vf va vk v, process_view self vf va vk r = (Return v, r').

End CsrfExemptApiMiddleware.

Import CsrfExemptApiMiddleware.

(** ** Specification vocabulary *)

(** [s] starts with [pre]: [s] is [pre] followed by something. *)
Definition StartsWith (pre s : string) : Prop := ∃ rest, s = pre +:+ rest.

(** The request has a [str] path [p]. *)
Definition has_path (r : Request) (p : string) : Prop :=
  r !! "path" = Some (PyStr p).

(** The exemption marker is set to [True]. *)
Definition exempt (r : Request) : Prop := r !! marker = Some (PyBool true).

(** Sample requests. *)
Definition the_middleware : t := {| get_response := PyFunc "get_response" |}.

Definition req_api_users : Request :=
  <["path" := PyStr "/api/users"]> (<["method" := PyStr "POST"]> ∅).

Definition req_dashboard : Request :=
  <["path" := PyStr "/dashboard/"]> (<["method" := PyStr "POST"]> ∅).

Definition req_dashboard_exempt : Request :=
  <[marker := PyBool true]> req_dashboard.

Definition req_empty_path : Request :=
  <["path" := PyStr ""]> (<["method" := PyStr "GET"]> ∅).

Definition req_no_path : Request := <["method" := PyStr "GET"]> ∅.


(** ** Running the hook *)

Section Run.

Variable self : t.
Variables view_func view_args view_kwargs : pyval.

Lemma startswith_spec (pre s : string) :
  startswith s pre = true ↔ StartsWith pre s.
Proof.
  revert s. induction pre as [|c pre IH]; intros s; simpl.
  - split; [intros _; by exists s | done].
  - destruct s as [|d s]; simpl.
    + split; [done | intros [rest Hrest]; discriminate].
    + rewrite andb_true_iff, Ascii.eqb_eq, IH. split.
      * intros [-> [rest ->]]. by exists rest.
      * intros [rest Hrest]. simpl in Hrest. injection Hrest as -> ->.
        split; [done | by exists rest].
Qed.

Lemma startswith_false (pre s : string) :
  ¬ StartsWith pre s → startswith s pre = false.
Proof.
  intros Hno. destruct (startswith s pre) eqn:E; [|done].
  destruct Hno. by apply startswith_spec.
Qed.

Lemma is_api_route_run (r : Request) (p : string) :
  has_path r p →
  is_api_route r = (Return (PyBool (startswith p api_prefix)), r).
Proof.
  intros Hp. unfold is_api_route, py_bind, getattr.
  unfold has_path in Hp. by rewrite Hp.
Qed.

Lemma process_view_run (r : Request) (p : string) :
  has_path r p →
  process_view self view_func view_args view_kwargs r =
    (Return PyNone,
     if startswith p api_prefix then <[marker := PyBool true]> r else r).
Proof.
  intros Hp. unfold process_view, py_bind.
  rewrite (is_api_route_run r p Hp).
  destruct (startswith p api_prefix); reflexivity.
Qed.

(** Whatever the request holds, a normal return yields [None] and either
    the same request or the request with the marker written to [True]. *)
Lemma process_view_inv (r r' : Request) (v : pyval) :
  process_view self view_func view_args view_kwargs r = (Return v, r') →
  v = PyNone ∧ (r' = r ∨ r' = <[marker := PyBool true]> r).
Proof.
  unfold process_view, py_bind, is_api_route, py_bind, getattr.
  destruct (r !! "path") as [path|]; [|discriminate].
  destruct path as [| | |s| | | |];
    cbv [call_startswith py_ret py_raise]; try discriminate.
  destruct (startswith s api_prefix);
    cbv [truthy setattr py_ret]; intros [= <- <-]; auto.
Qed.

Lemma has_path_insert_marker (r : Request) (p : string) (v : pyval) :
  has_path r p → has_path (<[marker := v]> r) p.
Proof. unfold has_path. intros Hp. by rewrite lookup_insert_ne. Qed.

End Run.

(** ** The decision *)

(** C1: on a request whose path is the string [p], the condition of the gate
    evaluates to [True] exactly when [p] starts with the case-sensitive
    literal ['/api/'], and the hook writes the marker exactly in that case;
    ['/api/'] itself is exempt, ['/api'] and ['/API/users'] are not. *)
Theorem exemption_iff_api_prefix
    (self : t) (vf va vk : pyval) (r : Request) (p : string) :
  has_path r p →
  ∃ b : bool,
    is_api_route r = (Return (PyBool b), r)
    ∧ process_view self vf va vk r =
        (Return PyNone, if b then <[marker := PyBool true]> r else r)
    ∧ (b = true ↔ StartsWith "/api/" p)
    ∧ (p = "/api/" → b = true)
    ∧ (p = "/api" → b = false)
    ∧ (p = "/API/users" → b = false).
Proof.
  intros Hp. exists (startswith p api_prefix).
  split; [by apply is_api_route_run|].
  split; [by apply process_view_run|].
  split; [apply startswith_spec|].
  repeat split; intros ->; reflexivity.
Qed.

Lemma exemption_iff_api_prefix_witness :
  has_path req_api_users "/api/users" ∧
  ∃ b : bool,
    is_api_route req_api_users = (Return (PyBool b), req_api_users)
    ∧ process_view the_middleware (PyFunc "list_users") (PyTuple []) (PyDict [])
        req_api_users =
        (Return PyNone,
         if b then <[marker := PyBool true]> req_api_users else req_api_users)
    ∧ (b = true ↔ StartsWith "/api/" "/api/users")
    ∧ ("/api/users" = "/api/" → b = true)
    ∧ ("/api/users" = "/api" → b = false)
    ∧ ("/api/users" = "/API/users" → b = false).
Proof.
  split; [reflexivity|].
  apply (exemption_iff_api_prefix the_middleware _ _ _ req_api_users "/api/users").
  reflexivity.
Defined.

(** ** Frame properties *)

(** C2: when the path does not start with ['/api/'], the hook returns with
    the request exactly as it was: every attribute, the marker included, has
    the value it had before. *)
Theorem non_api_request_untouched
    (self : t) (vf va vk : pyval) (r : Request) (p : string) :
  has_path r p →
  ¬ StartsWith "/api/" p →
  ∃ r' : Request,
    process_view self vf va vk r = (Return PyNone, r')
    ∧ r' = r
    ∧ (∀ name : string, r' !! name = r !! name)
    ∧ r' !! marker = r !! marker.
Proof.
  intros Hp Hno. exists r.
  rewrite (process_view_run self vf va vk r p Hp).
  by rewrite (startswith_false api_prefix p Hno).
Qed.

Lemma not_startswith_dashboard : ¬ StartsWith "/api/" "/dashboard/".
Proof. intros [rest Hrest]. discriminate Hrest. Qed.

Lemma non_api_request_untouched_witness :
  has_path req_dashboard "/dashboard/" ∧
  ∃ r' : Request,
    process_view the_middleware (PyFunc "dashboard") (PyTuple []) (PyDict [])
      req_dashboard = (Return PyNone, r')
    ∧ r' = req_dashboard
    ∧ (∀ name : string, r' !! name = req_dashboard !! name)
    ∧ r' !! marker = req_dashboard !! marker.
Proof.
  split; [reflexivity|].
  apply (non_api_request_untouched the_middleware _ _ _ req_dashboard "/dashboard/").
  - reflexivity.
  - exact not_startswith_dashboard.
Defined.

(** C3: when the path starts with ['/api/'], the hook returns with the marker
    attribute equal to [True] and every other attribute, the path included,
    as it was before. *)
Theorem api_request_marked_only
    (self : t) (vf va vk : pyval) (r : Request) (p : string) :
  has_path r p →
  StartsWith "/api/" p →
  ∃ r' : Request,
    process_view self vf va vk r = (Return PyNone, r')
    ∧ r' !! marker = Some (PyBool true)
    ∧ (∀ name : string, name ≠ marker → r' !! name = r !! name)
    ∧ has_path r' p.
Proof.
  intros Hp Hyes. apply startswith_spec in Hyes.
  exists (<[marker := PyBool true]> r).
  rewrite (process_view_run self vf va vk r p Hp).
  change "/api/" with api_prefix in Hyes. rewrite Hyes.
  split; [done|]. split; [apply lookup_insert_eq|].
  split; [|by apply has_path_insert_marker].
  intros name Hne. by apply lookup_insert_ne.
Qed.

Lemma api_request_marked_only_witness :
  has_path req_api_users "/api/users" ∧
  ∃ r' : Request,
    process_view the_middleware (PyFunc "list_users") (PyTuple []) (PyDict [])
      req_api_users = (Return PyNone, r')
    ∧ r' !! marker = Some (PyBool true)
    ∧ (∀ name : string, name ≠ marker → r' !! name = req_api_users !! name)
    ∧ has_path r' "/api/users".
Proof.
  split; [reflexivity|].
  apply (api_request_marked_only the_middleware _ _ _ req_api_users "/api/users").
  - reflexivity.
  - by exists "users".
Defined.

(** ** Repeated invocations *)

(** C4: running the hook twice in succession on a request, with whatever
    views, ends in the same outcome and the same request (hence the same
    marker) as running it once, and that run returns normally. *)
Theorem process_view_idempotent
    (self : t) (vf va vk vf' va' vk' : pyval) (r : Request) (p : string) :
  has_path r p →
  (process_view self vf va vk ;;; process_view self vf' va' vk') r =
    process_view self vf va vk r
  ∧ ∃ r1 : Request,
      process_view self vf va vk r = (Return PyNone, r1)
      ∧ process_view self vf' va' vk' r1 = (Return PyNone, r1)
      ∧ snd (process_view self vf' va' vk' r1) !! marker = r1 !! marker.
Proof.
  intros Hp.
  assert (∃ r1, process_view self vf va vk r = (Return PyNone, r1)
                ∧ process_view self vf' va' vk' r1 = (Return PyNone, r1))
    as (r1 & H1 & H2).
  { rewrite (process_view_run self vf va vk r p Hp).
    destruct (startswith p api_prefix) eqn:E; eexists; (split; [reflexivity|]).
    - rewrite (process_view_run self vf' va' vk' _ p
                 (has_path_insert_marker r p _ Hp)), E.
      by rewrite insert_insert_eq.
    - by rewrite (process_view_run self vf' va' vk' r p Hp), E. }
  split.
  - unfold py_bind at 1. by rewrite H1, H2.
  - exists r1. by rewrite H2.
Qed.

Lemma process_view_idempotent_witness :
  has_path req_api_users "/api/users" ∧
  ((process_view the_middleware (PyFunc "list_users") (PyTuple []) (PyDict []) ;;;
    process_view the_middleware (PyFunc "list_users") (PyTuple []) (PyDict []))
     req_api_users =
   process_view the_middleware (PyFunc "list_users") (PyTuple []) (PyDict [])
     req_api_users
   ∧ ∃ r1 : Request,
       process_view the_middleware (PyFunc "list_users") (PyTuple []) (PyDict [])
         req_api_users = (Return PyNone, r1)
       ∧ process_view the_middleware (PyFunc "list_users") (PyTuple []) (PyDict [])
           r1 = (Return PyNone, r1)
       ∧ snd (process_view the_middleware (PyFunc "list_users") (PyTuple [])
                (PyDict []) r1) !! marker = r1 !! marker).
Proof.
  split; [reflexivity|].
  apply (process_view_idempotent the_middleware _ _ _ _ _ _
           req_api_users "/api/users").
  reflexivity.
Defined.

(** ** Totality *)

(** C5: on a request whose path is any string, the condition evaluates to a
    boolean without raising and the hook returns normally; the boolean is
    [False] when the path does not start with ['/api/'], as for the empty
    path, and the request is then left as it was. *)
Theorem decision_total_on_strings
    (self : t) (vf va vk : pyval) (r : Request) (p : string) :
  has_path r p →
  (∃ b : bool,
     is_api_route r = (Return (PyBool b), r)
     ∧ (¬ StartsWith "/api/" p → b = false)
     ∧ (p = "" → b = false))
  ∧ (∃ r' : Request, process_view self vf va vk r = (Return PyNone, r'))
  ∧ (¬ StartsWith "/api/" p →
     process_view self vf va vk r = (Return PyNone, r)).
Proof.
  intros Hp. pose proof (process_view_run self vf va vk r p Hp) as Hrun.
  split; [|split].
  - exists (startswith p api_prefix). split; [by apply is_api_route_run|].
    split; [apply startswith_false | by intros ->].
  - eauto.
  - intros Hno. by rewrite Hrun, (startswith_false api_prefix p Hno).
Qed.

Lemma decision_total_on_strings_witness :
  has_path req_empty_path "" ∧
  (∃ b : bool,
     is_api_route req_empty_path = (Return (PyBool b), req_empty_path)
     ∧ (¬ StartsWith "/api/" "" → b = false)
     ∧ ("" = "" → b = false))
  ∧ (∃ r' : Request,
       process_view the_middleware (PyFunc "index") (PyTuple []) (PyDict [])
         req_empty_path = (Return PyNone, r'))
  ∧ (¬ StartsWith "/api/" "" →
     process_view the_middleware (PyFunc "index") (PyTuple []) (PyDict [])
       req_empty_path = (Return PyNone, req_empty_path)).
Proof.
  split; [reflexivity|].
  apply (decision_total_on_strings the_middleware _ _ _ req_empty_path "").
  reflexivity.
Defined.

(** ** The marker over time *)

(** C6: along any sequence of invocations of the hook on a request, a marker
    that is [True] stays [True]; no invocation writes anything else to it. *)
Theorem marker_stays_true (r r' : Request) :
  rtc gate_step r r' →
  exempt r →
  exempt r'.
Proof.
  intros Hsteps. induction Hsteps as [r|r r1 r' Hstep _ IH]; [done|].
  intros Hex. apply IH. clear IH.
  destruct Hstep as (self & vf & va & vk & v & Hrun).
  apply process_view_inv in Hrun as [_ [-> | ->]]; [done|].
  apply lookup_insert_eq.
Qed.

Lemma gate_step_dashboard_exempt :
  gate_step req_dashboard_exempt req_dashboard_exempt.
Proof.
  exists the_middleware, (PyFunc "dashboard"), (PyTuple []), (PyDict []), PyNone.
  reflexivity.
Defined.

Lemma marker_stays_true_witness :
  rtc gate_step req_dashboard_exempt req_dashboard_exempt
  ∧ exempt req_dashboard_exempt
  ∧ exempt req_dashboard_exempt.
Proof.
  assert (rtc gate_step req_dashboard_exempt req_dashboard_exempt) as Hsteps.
  { eapply rtc_l; [exact gate_step_dashboard_exempt|].
    apply rtc_once. exact gate_step_dashboard_exempt. }
  split; [exact Hsteps|]. split; [reflexivity|].
  apply (marker_stays_true req_dashboard_exempt req_dashboard_exempt Hsteps).
  reflexivity.
Defined.

(** ** The return value *)

(** C7: on every request with a string path, whether or not it starts with
    ['/api/'], the hook returns [None]. *)
Theorem process_view_returns_none
    (self : t) (vf va vk : pyval) (r : Request) (p : string) :
  has_path r p →
  fst (process_view self vf va vk r) = Return PyNone.
Proof.
  intros Hp. by rewrite (process_view_run self vf va vk r p Hp).
Qed.

Lemma process_view_returns_none_witness :
  has_path req_dashboard "/dashboard/" ∧
  fst (process_view the_middleware (PyFunc "dashboard") (PyTuple []) (PyDict [])
         req_dashboard) = Return PyNone.
Proof.
  split; [reflexivity|].
  apply (process_view_returns_none the_middleware _ _ _ req_dashboard "/dashboard/").
  reflexivity.
Defined.

(** ** Dependence on the path and the marker only *)

(** C8: two invocations on requests with the same path string and the same
    prior marker, with any instances, views, view arguments and other
    attributes, return the same value and end with the same marker. *)
Theorem gate_depends_on_path_and_marker
    (self1 self2 : t) (vf1 va1 vk1 vf2 va2 vk2 : pyval)
    (r1 r2 : Request) (p : string) :
  has_path r1 p →
  has_path r2 p →
  r1 !! marker = r2 !! marker →
  ∃ (v : pyval) (r1' r2' : Request),
    process_view self1 vf1 va1 vk1 r1 = (Return v, r1')
    ∧ process_view self2 vf2 va2 vk2 r2 = (Return v, r2')
    ∧ r1' !! marker = r2' !! marker.
Proof.
  intros Hp1 Hp2 Hm.
  rewrite (process_view_run self1 vf1 va1 vk1 r1 p Hp1).
  rewrite (process_view_run self2 vf2 va2 vk2 r2 p Hp2).
  exists PyNone. do 2 eexists. split; [reflexivity|]. split; [reflexivity|].
  destruct (startswith p api_prefix); [|done].
  by rewrite !lookup_insert_eq.
Qed.

Lemma gate_depends_on_path_and_marker_witness :
  has_path req_api_users "/api/users"
  ∧ has_path (<["user" := PyStr "alice"]> req_api_users) "/api/users"
  ∧ req_api_users !! marker = <["user" := PyStr "alice"]> req_api_users !! marker
  ∧ ∃ (v : pyval) (r1' r2' : Request),
      process_view the_middleware (PyFunc "list_users") (PyTuple []) (PyDict [])
        req_api_users = (Return v, r1')
      ∧ process_view {| get_response := PyNone |} (PyFunc "create_user")
          (PyTuple [PyInt 7]) (PyDict [("pk", PyInt 7)])
          (<["user" := PyStr "alice"]> req_api_users) = (Return v, r2')
      ∧ r1' !! marker = r2' !! marker.
Proof.
  split; [reflexivity|]. split; [reflexivity|]. split; [reflexivity|].
  apply (gate_depends_on_path_and_marker the_middleware {| get_response := PyNone |}
           _ _ _ _ _ _ req_api_users (<["user" := PyStr "alice"]> req_api_users)
           "/api/users"); reflexivity.
Defined.

(** ** Pre-existing exemption *)

(** C9: if the marker is already [True] when the hook runs, the hook returns
    with the marker still [True], whatever the path string is. *)
Theorem existing_exemption_preserved
    (self : t) (vf va vk : pyval) (r : Request) (p : string) :
  has_path r p →
  exempt r →
  ∃ r' : Request,
    process_view self vf va vk r = (Return PyNone, r') ∧ exempt r'.
Proof.
  intros Hp Hex. rewrite (process_view_run self vf va vk r p Hp).
  eexists. split; [reflexivity|].
  case_eq (startswith p api_prefix); intros _; [|exact Hex].
  apply lookup_insert_eq.
Qed.

Lemma existing_exemption_preserved_witness :
  has_path req_dashboard_exempt "/dashboard/"
  ∧ exempt req_dashboard_exempt
  ∧ ∃ r' : Request,
      process_view the_middleware (PyFunc "dashboard") (PyTuple []) (PyDict [])
        req_dashboard_exempt = (Return PyNone, r')
      ∧ exempt r'.
Proof.
  split; [reflexivity|]. split; [reflexivity|].
  apply (existing_exemption_preserved the_middleware _ _ _
           req_dashboard_exempt "/dashboard/"); reflexivity.
Defined.


(** ** Requests without a string path *)


(** X2: when the request has no [path] attribute, reading [request.path]
    raises [AttributeError] for [path]; the request is unchanged and no
    marker attribute is created. *)
Theorem missing_path_raises_attribute_error
    (self : t) (vf va vk : pyval) (r : Request) :
  r !! "path" = None →
  process_view self vf va vk r = (Raise (AttributeError "path"), r)
  ∧ snd (process_view self vf va vk r) !! marker = r !! marker.
Proof.
  intros Hnone.
  assert (process_view self vf va vk r = (Raise (AttributeError "path"), r))
    as Hrun.
  { unfold process_view, py_bind, is_api_route, py_bind, getattr.
    by rewrite Hnone. }
  split; [exact Hrun | by rewrite Hrun].
Qed.

Lemma missing_path_raises_attribute_error_witness :
  req_no_path !! "path" = None
  ∧ process_view the_middleware (PyFunc "index") (PyTuple []) (PyDict [])
      req_no_path = (Raise (AttributeError "path"), req_no_path)
  ∧ snd (process_view the_middleware (PyFunc "index") (PyTuple []) (PyDict [])
           req_no_path) !! marker = req_no_path !! marker.
Proof.
  split; [reflexivity|].
  apply (missing_path_raises_attribute_error the_middleware _ _ _ req_no_path).
  reflexivity.
Defined.



(** ** Sequences of invocations *)

Lemma gate_step_api_users :
  gate_step req_api_users (<[marker := PyBool true]> req_api_users).
Proof.
  exists the_middleware, (PyFunc "list_users"), (PyTuple []), (PyDict []), PyNone.
  reflexivity.
Defined.

Lemma gate_step_api_users_marked :
  gate_step (<[marker := PyBool true]> req_api_users)
            (<[marker := PyBool true]> req_api_users).
Proof.
  exists the_middleware, (PyFunc "list_users"), (PyTuple []), (PyDict []), PyNone.
  reflexivity.
Defined.

Lemma two_steps_api_users :
  rtc gate_step req_api_users (<[marker := PyBool true]> req_api_users).
Proof.
  eapply rtc_l; [exact gate_step_api_users|].
  apply rtc_once. exact gate_step_api_users_marked.
Defined.

(** X4: however many times the hook runs on a request, every attribute other
    than the marker keeps its value, the path among them, and no attribute
    is ever removed. *)
Theorem invocations_frame (r r' : Request) :
  rtc gate_step r r' →
  (∀ name : string, name ≠ marker → r' !! name = r !! name)
  ∧ r' !! "path" = r !! "path"
  ∧ dom r ⊆ dom r'.
Proof.
  intros Hsteps.
  induction Hsteps as [r|r r1 r' Hstep _ (IHother & IHpath & IHdom)];
    [done|].
  destruct Hstep as (self & vf & va & vk & v & Hrun).
  apply process_view_inv in Hrun as [_ [-> | ->]]; [done|].
  split; [|split].
  - intros name Hne. by rewrite (IHother name Hne), lookup_insert_ne.
  - by rewrite IHpath, lookup_insert_ne.
  - etrans; [apply dom_insert_subseteq | exact IHdom].
Qed.

Lemma invocations_frame_witness :
  rtc gate_step req_api_users (<[marker := PyBool true]> req_api_users)
  ∧ (∀ name : string, name ≠ marker →
       <[marker := PyBool true]> req_api_users !! name = req_api_users !! name)
  ∧ <[marker := PyBool true]> req_api_users !! "path" = req_api_users !! "path"
  ∧ dom req_api_users ⊆ dom (<[marker := PyBool true]> req_api_users).
Proof.
  split; [exact two_steps_api_users|].
  exact (invocations_frame _ _ two_steps_api_users).
Defined.

(** X5: any number of invocations of the hook on a request ends in one of two
    requests only: the request as it was, or the request with the marker
    written to [True]. *)
Theorem invocations_reach_two_states (r r' : Request) :
  rtc gate_step r r' →
  r' = r ∨ r' = <[marker := PyBool true]> r.
Proof.
  intros Hsteps. induction Hsteps as [r|r r1 r' Hstep _ IH]; [by left|].
  destruct Hstep as (self & vf & va & vk & v & Hrun).
  apply process_view_inv in Hrun as [_ [-> | ->]]; [exact IH|].
  right. destruct IH as [-> | ->]; [done | apply insert_insert_eq].
Qed.

Lemma invocations_reach_two_states_witness :
  rtc gate_step req_api_users (<[marker := PyBool true]> req_api_users)
  ∧ (<[marker := PyBool true]> req_api_users = req_api_users
     ∨ <[marker := PyBool true]> req_api_users
       = <[marker := PyBool true]> req_api_users).
Proof.
  split; [exact two_steps_api_users|].
  exact (invocations_reach_two_states _ _ two_steps_api_users).
Defined.

(** ** Composition with other writes to the request *)

(** X6: on a request with a string path, the hook commutes with a write to
    any attribute other than the path and the marker: setting the attribute
    before the hook or after it gives the same return value and the same
    request. *)
Theorem process_view_commutes_with_setattr
    (self : t) (vf va vk : pyval) (r : Request) (p name : string) (v : pyval) :
  has_path r p →
  name ≠ "path" →
  name ≠ marker →
  (setattr name v ;;; process_view self vf va vk) r =
  (x <- process_view self vf va vk ;; setattr name v ;;; py_ret x) r.
Proof.
  intros Hp Hnp Hnm.
  assert (has_path (<[name := v]> r) p) as Hp'.
  { unfold has_path. by rewrite lookup_insert_ne. }
  unfold py_bind, setattr.
  rewrite (process_view_run self vf va vk _ p Hp').
  rewrite (process_view_run self vf va vk r p Hp).
  unfold py_ret. f_equal.
  destruct (startswith p api_prefix); [|done].
  by apply insert_insert_ne.
Qed.

Lemma process_view_commutes_with_setattr_witness :
  has_path req_api_users "/api/users"
  ∧ "user" ≠ "path"
  ∧ "user" ≠ marker
  ∧ (setattr "user" (PyStr "alice") ;;;
     process_view the_middleware (PyFunc "list_users") (PyTuple []) (PyDict []))
      req_api_users =
    (x <- process_view the_middleware (PyFunc "list_users") (PyTuple [])
            (PyDict []) ;;
     setattr "user" (PyStr "alice") ;;; py_ret x) req_api_users.
Proof.
  split; [reflexivity|]. split; [discriminate|]. split; [discriminate|].
  apply (process_view_commutes_with_setattr the_middleware _ _ _
           req_api_users "/api/users" "user" (PyStr "alice")).
  - reflexivity.
  - discriminate.
  - discriminate.
Defined.

(** ** The prefix test *)

Lemma string_app_assoc (a b c : string) :
  (a +:+ b) +:+ c = a +:+ (b +:+ c).
Proof.
  induction a as [|x a IH]; [reflexivity|].
  change (String x ((a +:+ b) +:+ c) = String x (a +:+ (b +:+ c))).
  by rewrite IH.
Qed.

Lemma string_app_length (a b : string) :
  String.length (a +:+ b) = String.length a + String.length b.
Proof.
  induction a as [|x a IH]; [reflexivity|].
  change (S (String.length (a +:+ b)) = S (String.length a + String.length b)).
  by rewrite IH.
Qed.

Lemma startswith_substring (pre s : string) :
  startswith s pre = startswith (String.substring 0 (String.length pre) s) pre.
Proof.
  revert s. induction pre as [|c pre IH]; intros s; [done|].
  destruct s as [|d s]; [done|]. simpl. by rewrite <- IH.
Qed.

(** X7: every path below an exempt path is exempt: if the condition is
    [True] for the path [p], it is [True] for [p] followed by any [q], and
    the hook marks the request that carries that longer path. *)
Theorem sub_routes_exempt
    (self : t) (vf va vk : pyval) (r r2 : Request) (p q : string) :
  has_path r p →
  is_api_route r = (Return (PyBool true), r) →
  has_path r2 (p +:+ q) →
  is_api_route r2 = (Return (PyBool true), r2)
  ∧ process_view self vf va vk r2 =
      (Return PyNone, <[marker := PyBool true]> r2).
Proof.
  intros Hp Hyes Hp2.
  rewrite (is_api_route_run r p Hp) in Hyes.
  assert (startswith p api_prefix = true) as Hpre by congruence.
  assert (startswith (p +:+ q) api_prefix = true) as Hpre2.
  { apply startswith_spec. apply startswith_spec in Hpre as [rest ->].
    exists (rest +:+ q). apply string_app_assoc. }
  split.
  - by rewrite (is_api_route_run r2 _ Hp2), Hpre2.
  - by rewrite (process_view_run self vf va vk r2 _ Hp2), Hpre2.
Qed.

Lemma sub_routes_exempt_witness :
  has_path req_api_users "/api/users"
  ∧ is_api_route req_api_users = (Return (PyBool true), req_api_users)
  ∧ has_path (<["path" := PyStr "/api/users/42/delete"]> req_api_users)
      ("/api/users" +:+ "/42/delete")
  ∧ is_api_route (<["path" := PyStr "/api/users/42/delete"]> req_api_users)
      = (Return (PyBool true),
         <["path" := PyStr "/api/users/42/delete"]> req_api_users)
  ∧ process_view the_middleware (PyFunc "delete_user") (PyTuple [PyInt 42])
      (PyDict []) (<["path" := PyStr "/api/users/42/delete"]> req_api_users) =
      (Return PyNone,
       <[marker := PyBool true]>
         (<["path" := PyStr "/api/users/42/delete"]> req_api_users)).
Proof.
  split; [reflexivity|]. split; [reflexivity|]. split; [reflexivity|].
  apply (sub_routes_exempt the_middleware _ _ _ req_api_users
           (<["path" := PyStr "/api/users/42/delete"]> req_api_users)
           "/api/users" "/42/delete"); reflexivity.
Defined.

(** X8: the decision reads the first five characters of the path and nothing
    else: two requests whose paths agree on their first five characters get
    the same value of the condition, and a path shorter than five characters
    is never exempt. *)
Theorem decision_reads_first_five_characters
    (r1 r2 : Request) (p1 p2 : string) :
  has_path r1 p1 →
  has_path r2 p2 →
  String.substring 0 5 p1 = String.substring 0 5 p2 →
  fst (is_api_route r1) = fst (is_api_route r2)
  ∧ (String.length p1 < 5 → fst (is_api_route r1) = Return (PyBool false)).
Proof.
  intros Hp1 Hp2 Hsub.
  rewrite (is_api_route_run r1 p1 Hp1), (is_api_route_run r2 p2 Hp2).
  cbn [fst].
  split.
  - rewrite (startswith_substring api_prefix p1).
    rewrite (startswith_substring api_prefix p2).
    change (String.length api_prefix) with 5. by rewrite Hsub.
  - intros Hlen. do 2 f_equal. apply startswith_false. intros [rest ->].
    rewrite string_app_length in Hlen.
    change (String.length api_prefix) with 5 in Hlen. lia.
Qed.

Lemma decision_reads_first_five_characters_witness :
  has_path req_api_users "/api/users"
  ∧ has_path (<["path" := PyStr "/api/gigs/7"]> req_dashboard) "/api/gigs/7"
  ∧ String.substring 0 5 "/api/users" = String.substring 0 5 "/api/gigs/7"
  ∧ fst (is_api_route req_api_users)
    = fst (is_api_route (<["path" := PyStr "/api/gigs/7"]> req_dashboard))
  ∧ (String.length "/api/users" < 5 →
     fst (is_api_route req_api_users) = Return (PyBool false)).
Proof.
  split; [reflexivity|]. split; [reflexivity|]. split; [reflexivity|].
  apply (decision_reads_first_five_characters req_api_users
           (<["path" := PyStr "/api/gigs/7"]> req_dashboard)
           "/api/users" "/api/gigs/7"); reflexivity.
Defined.
